(** * cmfi-resource-portal: session bootstrap and YouTube channel registration

    A shallow embedding of the asynchronous event handlers of the portal:

    - [YouTubeChannelForm.onSubmit]
      (src/components/admin/youtube/YouTubeChannelForm.tsx, the revision with
      the duplicate pre-check, the [@handle] URL and the video fetch), and
    - [Login.checkSession] (the login page's effect),

    and of the first revision of the form's handler, which the same source
    file still holds ([YouTubeChannelFormV1.onSubmit]).

    Both handlers are straight-line [async] functions whose behaviour is the
    sequence of calls they make on their collaborators (the Supabase client,
    the toast surface, the router, the form object, React state).  They are
    embedded in a small monad [Eff] that threads the component state and the
    log of calls made, and whose results are JavaScript completions: normal,
    [return], or [throw].  What the collaborators answer is taken from an
    environment record, one field per call site's callee.

    Two further models sit on top of the handlers: [Mounted], the mounted
    form with several runs of [onSubmit] in flight, each advancing from one
    [await] to the next; and [History], the browser history the router of
    [navigate] moves in. *)

From Stdlib Require Import String Ascii List Bool Arith ZArith Lia.
From ExtLib Require Import Structures.Monad Structures.MonadExc.
Import ListNotations.
Import MonadNotation.
Local Open Scope string_scope.
Local Open Scope monad_scope.

(** ** Values exchanged with the collaborators *)

(** [PostgrestError]: the error object of a Supabase table call. *)
Record PostgrestError : Type := mkPostgrestError {
  code : string;
  message : string
}.

(** [AuthError]: the error object of a Supabase auth call. *)
Record AuthError : Type := mkAuthError {
  auth_message : string
}.

(** Anything a [throw] or a rejected promise can carry. *)
Inductive Thrown : Type :=
| ThrownPostgrest (e : PostgrestError)
| ThrownAuth (e : AuthError)
| ThrownOther (what : string).

(** The outcome of an awaited promise. *)
Inductive awaited (A : Type) : Type :=
| Resolved (a : A)
| Rejected (e : Thrown).
Arguments Resolved {A} a.
Arguments Rejected {A} e.

(** The row sent to [content_sources]. *)
Record ContentSource : Type := mkContentSource {
  type : string;
  name : string;
  source_id : string;
  source_url : string
}.

(** [z.infer<typeof formSchema>]. *)
Record FormValues : Type := mkFormValues {
  fv_name : string;
  fv_channelId : string
}.

(** The row selected by the pre-check, [select("id")]. *)
Record IdRow : Type := mkIdRow { id : string }.

(** [{ data, error }] of [.maybeSingle()]. *)
Record SelectResponse : Type := mkSelectResponse {
  sel_data : option IdRow;
  sel_error : option PostgrestError
}.

(** [{ error }] of [.insert(...)]. *)
Record InsertResponse : Type := mkInsertResponse {
  ins_error : option PostgrestError
}.

(** A session is opaque: only its presence is tested. *)
Record Session : Type := mkSession { access_token : string }.

(** [{ data: { session }, error }] of [auth.getSession()]. *)
Record SessionResponse : Type := mkSessionResponse {
  session : option Session;
  session_error : option AuthError
}.

(** [{ error }] of [auth.signInWithPassword] and [auth.signUp]. *)
Record AuthResponse : Type := mkAuthResponse {
  auth_error : option AuthError
}.

Record Credentials : Type := mkCredentials {
  email : string;
  password : string
}.

Inductive Variant : Type := VDefault | VDestructive.

Record Toast : Type := mkToast {
  title : string;
  description : string;
  variant : Variant
}.

(** The argument of [navigate]: a history delta or an absolute route. *)
Inductive NavTarget : Type :=
| NavDelta (delta : Z)
| NavTo (route : string).

(** ** The calls a handler makes, in the order it makes them *)

Inductive Effect : Type :=
| SetIsLoading (b : bool)
| Select (table columns : string) (filters : list (string * string))
| Insert (table : string) (row : ContentSource)
| ShowToast (t : Toast)
| ConsoleError (label : string) (payload : Thrown)
| Navigate (target : NavTarget)
| FetchYouTubeVideos (channelId : string)
| FormReset
| OnSuccess
| GetSession
| SignInWithPassword (c : Credentials)
| SignUp (c : Credentials) (role : string).

(** ** Completions and the effect monad *)

(** How a block of statements ends. *)
Inductive completion (A : Type) : Type :=
| Normal (a : A)
| Return
| Throw (e : Thrown).
Arguments Normal {A} a.
Arguments Return {A}.
Arguments Throw {A} e.

Section EffMonad.

(** [S] is the state of the component that owns the handler. *)
Context {S : Type}.

Definition Eff (A : Type) : Type :=
  S -> list Effect -> completion A * S * list Effect.

Definition eff_ret {A} (a : A) : Eff A :=
  fun s l => (Normal a, s, l).

Definition eff_bind {A B} (m : Eff A) (k : A -> Eff B) : Eff B :=
  fun s l =>
    match m s l with
    | (Normal a, s', l') => k a s' l'
    | (Return, s', l') => (Return, s', l')
    | (Throw e, s', l') => (Throw e, s', l')
    end.

(** The [return] statement. *)
Definition eff_return {A} : Eff A :=
  fun s l => (Return, s, l).

(** The [throw] statement. *)
Definition eff_throw {A} (e : Thrown) : Eff A :=
  fun s l => (Throw e, s, l).

(** [try { body } catch (e) { handler e }]. *)
Definition try_catch {A} (body : Eff A) (handler : Thrown -> Eff A) : Eff A :=
  fun s l =>
    match body s l with
    | (Throw e, s', l') => handler e s' l'
    | r => r
    end.

(** [try { body } finally { fin }]: [fin] runs however [body] ends, and the
    completion of [body] stands unless [fin] itself ends abruptly. *)
Definition try_finally {A} (body : Eff A) (fin : Eff unit) : Eff A :=
  fun s l =>
    match body s l with
    | (c, s', l') =>
        match fin s' l' with
        | (Normal _, s'', l'') => (c, s'', l'')
        | (Return, s'', l'') => (Return, s'', l'')
        | (Throw e, s'', l'') => (Throw e, s'', l'')
        end
    end.

(** Record a call in the log. *)
Definition emit (e : Effect) : Eff unit :=
  fun s l => (Normal tt, s, (l ++ [e])%list).

Definition modify_state (f : S -> S) : Eff unit :=
  fun s l => (Normal tt, f s, l).

(** [await p], the promise's call having been logged as [e]. *)
Definition await {A} (e : Effect) (p : awaited A) : Eff A :=
  fun s l =>
    match p with
    | Resolved a => (Normal a, s, (l ++ [e])%list)
    | Rejected x => (Throw x, s, (l ++ [e])%list)
    end.

(** An [async] function's body run to its end: a [return] is an ordinary
    end, an escaping [throw] is the promise's rejection. *)
Definition run_async (body : Eff unit) (s : S) : option Thrown * S * list Effect :=
  match body s [] with
  | (Throw e, s', l') => (Some e, s', l')
  | (_, s', l') => (None, s', l')
  end.

End EffMonad.

Arguments Eff : clear implicits.

#[export] Instance Monad_Eff (S : Type) : Monad (Eff S) :=
  {| ret := @eff_ret S; bind := @eff_bind S |}.

#[export] Instance Exc_Eff (S : Type) : MonadExc Thrown (Eff S) :=
  {| raise := @eff_throw S; catch := @try_catch S |}.

(** Calls shared by the two handlers. *)
Definition toast {S} (t : Toast) : Eff S unit := emit (ShowToast t).

Definition console_error {S} (label : string) (payload : Thrown) : Eff S unit :=
  emit (ConsoleError label payload).

(** [when c body]: [if (c) { body }]. *)
Definition when {S} (c : bool) (body : Eff S unit) : Eff S unit :=
  if c then body else ret tt.

(** Truthiness of an object-or-null value. *)
Definition truthy {A} (o : option A) : bool :=
  match o with Some _ => true | None => false end.

(** ** String helpers *)

(** [s.startsWith(p)]. *)
Fixpoint startsWith (s p : string) {struct p} : bool :=
  match p with
  | EmptyString => true
  | String b p' =>
      match s with
      | EmptyString => false
      | String a s' => Ascii.eqb a b && startsWith s' p'
      end
  end.

(** [s.includes(p)]. *)
Fixpoint includes (s p : string) : bool :=
  startsWith s p ||
  match s with
  | EmptyString => false
  | String _ rest => includes rest p
  end.

(** ** The channel form *)

Module YouTubeChannelForm.

(** What the component holds between renders: [useState(false)] and the
    values held by the [useForm] object. *)
Record Component : Type := mkComponent {
  isLoading : bool;
  form : FormValues
}.

Definition defaultValues : FormValues :=
  {| fv_name := ""; fv_channelId := "" |}.


(** [formSchema]: both fields are [z.string().min(1, ...)]. *)
Definition formSchema (v : FormValues) : bool :=
  (1 <=? String.length (fv_name v))%nat && (1 <=? String.length (fv_channelId v))%nat.

(** The collaborators of [onSubmit].  The three awaited calls answer with a
    resolved or a rejected promise; [fetchYouTubeVideos] lives in
    [@/services/youtube], and only how its promise ends matters here.
    [onSuccess] is the optional prop.  The synchronous calls ([toast],
    [console.error], [setIsLoading], [form.reset], [navigate] to a route and
    the callback) return normally. *)
Record Env : Type := mkEnv {
  select_maybeSingle : string -> string -> list (string * string) -> awaited SelectResponse;
  insert : string -> ContentSource -> awaited InsertResponse;
  fetchYouTubeVideos : string -> awaited unit;
  onSuccess : option unit
}.

Definition setIsLoading (b : bool) : Eff Component unit :=
  emit (SetIsLoading b) ;;
  modify_state (fun c => {| isLoading := b; form := form c |}).

(** [form.reset()]: back to [defaultValues]. *)
Definition form_reset : Eff Component unit :=
  emit FormReset ;;
  modify_state (fun c => {| isLoading := isLoading c; form := defaultValues |}).

(** [navigate(route)] with an absolute route. *)
Definition navigate (route : string) : Eff Component unit :=
  emit (Navigate (NavTo route)).

(** The template literal of the [source_url] field. *)
Definition make_source_url (channelId : string) : string :=
  "https://www.youtube.com/" ++
  (if startsWith channelId "@" then channelId else "channel/" ++ channelId).

Definition already_exists_toast : Toast :=
  {| title := "Channel already exists";
     description := "This YouTube channel has already been added to your sources.";
     variant := VDestructive |}.

Definition added_toast : Toast :=
  {| title := "Channel added successfully";
     description := "The YouTube channel has been added to your sources.";
     variant := VDefault |}.

Definition error_toast : Toast :=
  {| title := "Error adding channel";
     description := "There was a problem adding the YouTube channel.";
     variant := VDestructive |}.

Definition new_row (values : FormValues) : ContentSource :=
  {| type := "youtube";
     name := fv_name values;
     source_id := fv_channelId values;
     source_url := make_source_url (fv_channelId values) |}.

Definition precheck_filters (values : FormValues) : list (string * string) :=
  [("type", "youtube"); ("source_id", fv_channelId values)].

(** The [try] block of [onSubmit]. *)
Definition onSubmit_try (env : Env) (values : FormValues) : Eff Component unit :=
  setIsLoading true ;;
  r <- await (Select "content_sources" "id" (precheck_filters values))
             (select_maybeSingle env "content_sources" "id" (precheck_filters values)) ;;
  match sel_error r with
  | Some checkError =>
      console_error "Error checking existing channel:" (ThrownPostgrest checkError) ;;
      raise (ThrownPostgrest checkError)
  | None => ret tt
  end ;;
  (if truthy (sel_data r)
   then toast already_exists_toast ;; eff_return
   else ret tt) ;;
  i <- await (Insert "content_sources" (new_row values))
             (insert env "content_sources" (new_row values)) ;;
  match ins_error i with
  | Some error =>
      console_error "Error details:" (ThrownPostgrest error) ;;
      (if String.eqb (code error) "42501"
       then navigate "/login" ;; eff_return
       else ret tt) ;;
      (if String.eqb (code error) "23505"
       then toast already_exists_toast ;; eff_return
       else ret tt) ;;
      raise (ThrownPostgrest error)
  | None => ret tt
  end ;;
  toast added_toast ;;
  await (FetchYouTubeVideos (fv_channelId values))
        (fetchYouTubeVideos env (fv_channelId values)) ;;
  form_reset ;;
  when (truthy (onSuccess env)) (emit OnSuccess).

(** The [catch] block of [onSubmit]. *)
Definition onSubmit_catch (error : Thrown) : Eff Component unit :=
  console_error "Error adding channel:" error ;;
  toast error_toast.

(** [async function onSubmit(values)]. *)
Definition onSubmit (env : Env) (values : FormValues) : Eff Component unit :=
  try_finally
    (try_catch (onSubmit_try env values) onSubmit_catch)
    (setIsLoading false).

(** [form.handleSubmit(onSubmit)]: the handler receives the values the form
    holds, and only when they pass [formSchema]. *)
Definition handleSubmit (env : Env) (c : Component) : option Thrown * Component * list Effect :=
  if formSchema (form c)
  then run_async (onSubmit env (form c)) c
  else (None, c, []).

(** [<Button type="submit" disabled={isLoading}>]. *)
Definition submit_disabled (c : Component) : bool := isLoading c.

(** The path on which every awaited call succeeds: the pre-check resolves
    with neither error nor row, the insert resolves without error and the
    video fetch resolves. *)
Definition full_success (env : Env) (values : FormValues) : bool :=
  match select_maybeSingle env "content_sources" "id" (precheck_filters values) with
  | Resolved {| sel_data := None; sel_error := None |} =>
      match insert env "content_sources" (new_row values) with
      | Resolved {| ins_error := None |} =>
          match fetchYouTubeVideos env (fv_channelId values) with
          | Resolved _ => true
          | Rejected _ => false
          end
      | _ => false
      end
  | _ => false
  end.

(** Sample collaborators: a store that answers the pre-check with [found]
    and an insert with [failure], and a fetch job that ends as [fetched]. *)
Definition sample_env (found : option IdRow) (failure : option PostgrestError)
    (fetched : awaited unit) (cb : option unit) : Env :=
  {| select_maybeSingle := fun _ _ _ =>
       Resolved {| sel_data := found; sel_error := None |};
     insert := fun _ _ => Resolved {| ins_error := failure |};
     fetchYouTubeVideos := fun _ => fetched;
     onSuccess := cb |}.

Definition env_found : Env :=
  sample_env (Some {| id := "41" |}) None (Resolved tt) None.

Definition env_added : Env :=
  sample_env None None (Resolved tt) (Some tt).

Definition env_fetch_rejected : Env :=
  sample_env None None (Rejected (ThrownOther "fetch failed")) (Some tt).

Definition unique_violation : PostgrestError :=
  {| code := "23505";
     message := "duplicate key value violates unique constraint" |}.

Definition permission_denied : PostgrestError :=
  {| code := "42501";
     message := "new row violates row-level security policy" |}.

Definition env_unique_violation : Env :=
  sample_env None (Some unique_violation) (Resolved tt) (Some tt).

Definition env_permission_denied : Env :=
  sample_env None (Some permission_denied) (Resolved tt) (Some tt).

Definition sample_values : FormValues :=
  {| fv_name := "CMFI"; fv_channelId := "UC123" |}.

Definition sample_component : Component :=
  {| isLoading := false; form := sample_values |}.

End YouTubeChannelForm.

(** ** The login page *)

Module Login.

(** The collaborators of [checkSession].  [signInWithPassword] is called at
    two places with the same credentials; its first argument here tells the
    first call (0) from the retry (1).  [history_go] tells whether
    [navigate(delta)] throws; [navigate(route)] does not. *)
Record Env : Type := mkEnv {
  getSession : awaited SessionResponse;
  signInWithPassword : nat -> Credentials -> awaited AuthResponse;
  signUp : Credentials -> string -> awaited AuthResponse;
  history_go : Z -> option Thrown
}.

Definition console_user : Credentials :=
  {| email := "console-user@lovable.dev"; password := "console-user" |}.

Definition navigate (env : Env) (target : NavTarget) : Eff unit unit :=
  emit (Navigate target) ;;
  match target with
  | NavDelta delta =>
      match history_go env delta with
      | Some e => raise e
      | None => ret tt
      end
  | NavTo _ => ret tt
  end.

(** [try { navigate(-1) } catch { navigate("/admin") }]. *)
Definition navigate_back (env : Env) : Eff unit unit :=
  try_catch (navigate env (NavDelta (-1)))
            (fun _ => navigate env (NavTo "/admin")).

Definition session_error_toast : Toast :=
  {| title := "Error checking session";
     description := "Please try again later";
     variant := VDestructive |}.

Definition sign_up_error_toast (signUpError : AuthError) : Toast :=
  {| title := "Error signing up";
     description := auth_message signUpError;
     variant := VDestructive |}.

Definition sign_in_error_toast (retryError : AuthError) : Toast :=
  {| title := "Error signing in";
     description := auth_message retryError;
     variant := VDestructive |}.

(** The [else] branch up to the final navigation: sign in, and on failure
    sign up and sign in once more. *)
Definition sign_in_console_user (env : Env) : Eff unit unit :=
  r1 <- await (SignInWithPassword console_user)
              (signInWithPassword env 0 console_user) ;;
  match auth_error r1 with
  | Some signInError =>
      r2 <- await (SignUp console_user "admin")
                  (signUp env console_user "admin") ;;
      match auth_error r2 with
      | Some signUpError =>
          console_error "Error signing up:" (ThrownAuth signUpError) ;;
          toast (sign_up_error_toast signUpError) ;;
          eff_return
      | None => ret tt
      end ;;
      r3 <- await (SignInWithPassword console_user)
                  (signInWithPassword env 1 console_user) ;;
      match auth_error r3 with
      | Some retryError =>
          console_error "Error signing in:" (ThrownAuth retryError) ;;
          toast (sign_in_error_toast retryError) ;;
          eff_return
      | None => ret tt
      end
  | None => ret tt
  end.

(** [const checkSession = async () => { ... }]. *)
Definition checkSession (env : Env) : Eff unit unit :=
  r <- await GetSession (getSession env) ;;
  match session_error r with
  | Some error =>
      console_error "Error checking session:" (ThrownAuth error) ;;
      toast session_error_toast ;;
      eff_return
  | None => ret tt
  end ;;
  if truthy (session r)
  then navigate_back env
  else sign_in_console_user env ;; navigate_back env.

(** Sample collaborators: no session, the sign-in attempts answered by
    [first] and [retry], the sign-up by [created]. *)
Definition sample_env (first created retry : option AuthError)
    (back : option Thrown) : Env :=
  {| getSession := Resolved {| session := None; session_error := None |};
     signInWithPassword := fun attempt _ =>
       Resolved {| auth_error := match attempt with O => first | _ => retry end |};
     signUp := fun _ _ => Resolved {| auth_error := created |};
     history_go := fun _ => back |}.

Definition invalid_credentials : AuthError :=
  {| auth_message := "Invalid login credentials" |}.

Definition signups_disabled : AuthError :=
  {| auth_message := "Signups not allowed for this instance" |}.

(** Neither sign-in nor sign-up is accepted. *)
Definition env_no_account : Env :=
  sample_env (Some invalid_credentials) (Some signups_disabled)
             (Some invalid_credentials) None.

(** A first visit: the account is created, the retry succeeds, and
    [navigate(-1)] throws. *)
Definition env_first_visit : Env :=
  sample_env (Some invalid_credentials) None None
             (Some (ThrownOther "no history entry")).

End Login.

(** ** Reading a log *)

Definition is_insert (e : Effect) : bool :=
  match e with Insert _ _ => true | _ => false end.

Definition is_form_reset (e : Effect) : bool :=
  match e with FormReset => true | _ => false end.

(** The toasts shown, in order. *)
Fixpoint toasts (l : list Effect) : list Toast :=
  match l with
  | [] => []
  | ShowToast t :: l' => t :: toasts l'
  | _ :: l' => toasts l'
  end.

(** The navigations issued, in order. *)
Fixpoint navigations (l : list Effect) : list NavTarget :=
  match l with
  | [] => []
  | Navigate t :: l' => t :: navigations l'
  | _ :: l' => navigations l'
  end.

(** The three parts of a finished run. *)
Definition rejection_of {S} (r : option Thrown * S * list Effect) : option Thrown :=
  fst (fst r).

Definition state_of {S} (r : option Thrown * S * list Effect) : S :=
  snd (fst r).

Definition log_of {S} (r : option Thrown * S * list Effect) : list Effect :=
  snd r.

(** A URL has a [channel/] path segment when [/channel/] occurs in it. *)
Definition has_channel_segment (url : string) : bool :=
  includes url "/channel/".

(** ** The channel form, first revision *)

(** The file of the form holds an earlier revision of the component as
    well: it inserts straight away, always under [channel/], and knows
    neither the pre-check, nor the error codes, nor the video fetch. *)
Module YouTubeChannelFormV1.

(** The one collaborator the first revision awaits. *)
Record Env : Type := mkEnv {
  insert : string -> ContentSource -> awaited InsertResponse
}.

Definition new_row (values : FormValues) : ContentSource :=
  {| type := "youtube";
     name := fv_name values;
     source_id := fv_channelId values;
     source_url := "https://www.youtube.com/channel/" ++ fv_channelId values |}.

(** The [try] block. *)
Definition onSubmit_try (env : Env) (values : FormValues)
    : Eff YouTubeChannelForm.Component unit :=
  YouTubeChannelForm.setIsLoading true ;;
  i <- await (Insert "content_sources" (new_row values))
             (insert env "content_sources" (new_row values)) ;;
  match ins_error i with
  | Some error => raise (ThrownPostgrest error)
  | None => ret tt
  end ;;
  toast YouTubeChannelForm.added_toast ;;
  YouTubeChannelForm.form_reset.

(** The [catch] block. *)
Definition onSubmit_catch (error : Thrown) : Eff YouTubeChannelForm.Component unit :=
  console_error "Error adding channel:" error ;;
  toast YouTubeChannelForm.error_toast.

(** [async function onSubmit(values)]. *)
Definition onSubmit (env : Env) (values : FormValues)
    : Eff YouTubeChannelForm.Component unit :=
  try_finally
    (try_catch (onSubmit_try env values) onSubmit_catch)
    (YouTubeChannelForm.setIsLoading false).

(** Whether the insert resolved without an error. *)
Definition inserted (env : Env) (values : FormValues) : bool :=
  match insert env "content_sources" (new_row values) with
  | Resolved {| ins_error := None |} => true
  | _ => false
  end.

End YouTubeChannelFormV1.

(** ** More readers and sample collaborators *)

Definition is_select (e : Effect) : bool :=
  match e with Select _ _ _ => true | _ => false end.

Definition is_fetch (e : Effect) : bool :=
  match e with FetchYouTubeVideos _ => true | _ => false end.

Definition is_get_session (e : Effect) : bool :=
  match e with GetSession => true | _ => false end.

Definition is_sign_in (e : Effect) : bool :=
  match e with SignInWithPassword _ => true | _ => false end.

Definition is_sign_up (e : Effect) : bool :=
  match e with SignUp _ _ => true | _ => false end.

(** How many calls of a kind a log holds. *)
Definition count (p : Effect -> bool) (l : list Effect) : nat :=
  length (filter p l).

Definition statement_timeout : PostgrestError :=
  {| code := "57014";
     message := "canceling statement due to statement timeout" |}.

(** A store whose pre-check answers with an error. *)
Definition env_precheck_error : YouTubeChannelForm.Env :=
  {| YouTubeChannelForm.select_maybeSingle := fun _ _ _ =>
       Resolved {| sel_data := None; sel_error := Some statement_timeout |};
     YouTubeChannelForm.insert := fun _ _ => Resolved {| ins_error := None |};
     YouTubeChannelForm.fetchYouTubeVideos := fun _ => Resolved tt;
     YouTubeChannelForm.onSuccess := None |}.

(** A store whose insert answers with an error of another code. *)
Definition env_insert_timeout : YouTubeChannelForm.Env :=
  YouTubeChannelForm.sample_env None (Some statement_timeout) (Resolved tt) None.

Definition blank_component : YouTubeChannelForm.Component :=
  {| YouTubeChannelForm.isLoading := false;
     YouTubeChannelForm.form := {| fv_name := "CMFI"; fv_channelId := "" |} |}.

Definition network_down : AuthError :=
  {| auth_message := "Failed to fetch" |}.

(** An auth provider whose session query answers with an error. *)
Definition env_session_error : Login.Env :=
  {| Login.getSession :=
       Resolved {| session := None; session_error := Some network_down |};
     Login.signInWithPassword := fun _ _ => Resolved {| auth_error := None |};
     Login.signUp := fun _ _ => Resolved {| auth_error := None |};
     Login.history_go := fun _ => None |}.

(** An auth provider that holds a session already. *)
Definition env_signed_in : Login.Env :=
  {| Login.getSession :=
       Resolved {| session := Some {| access_token := "token" |};
                   session_error := None |};
     Login.signInWithPassword := fun _ _ =>
       Resolved {| auth_error := Some Login.invalid_credentials |};
     Login.signUp := fun _ _ =>
       Resolved {| auth_error := Some Login.signups_disabled |};
     Login.history_go := fun _ => None |}.

(** The console user exists: the first sign-in is accepted. *)
Definition env_known_user : Login.Env :=
  Login.sample_env None (Some Login.signups_disabled)
                   (Some Login.invalid_credentials) None.

(** The account is created but the retry is refused. *)
Definition env_unconfirmed : Login.Env :=
  Login.sample_env (Some Login.invalid_credentials) None
                   (Some {| auth_message := "Email not confirmed" |}) None.

(** An auth provider whose sign-in promise rejects. *)
Definition env_sign_in_rejects : Login.Env :=
  {| Login.getSession := Resolved {| session := None; session_error := None |};
     Login.signInWithPassword := fun _ _ => Rejected (ThrownOther "Failed to fetch");
     Login.signUp := fun _ _ => Resolved {| auth_error := None |};
     Login.history_go := fun _ => None |}.


(** The calls of a log on the auth provider, in order. *)
Definition auth_calls (l : list Effect) : list Effect :=
  filter (fun e => is_get_session e || is_sign_in e || is_sign_up e) l.

(** ** The mounted form, with runs in flight *)

(** [onSubmit] is an [async] function: it runs up to its next [await],
    leaves the thread, and goes on when the awaited promise settles.  In
    between, other events reach the same mounted component: edits, further
    submissions, the settling of another run's promise.  A run never reads
    the component (its [values] are an argument), so a run in flight is the
    calls it has still to make, and what it does to the component is what
    those calls do. *)
Module Mounted.

(** The calls a run awaits: it suspends right after issuing one. *)
Definition suspends (e : Effect) : bool :=
  match e with
  | Select _ _ _ | Insert _ _ | FetchYouTubeVideos _ => true
  | _ => false
  end.

(** What a call does to the component. *)
Definition apply_call (c : YouTubeChannelForm.Component) (e : Effect)
    : YouTubeChannelForm.Component :=
  match e with
  | SetIsLoading b =>
      {| YouTubeChannelForm.isLoading := b;
         YouTubeChannelForm.form := YouTubeChannelForm.form c |}
  | FormReset =>
      {| YouTubeChannelForm.isLoading := YouTubeChannelForm.isLoading c;
         YouTubeChannelForm.form := YouTubeChannelForm.defaultValues |}
  | _ => c
  end.

Definition replay (l : list Effect) (c : YouTubeChannelForm.Component)
    : YouTubeChannelForm.Component :=
  fold_left apply_call l c.

(** The calls made until the run next suspends, that call included, and
    the calls left after it. *)
Fixpoint next_segment (l : list Effect) : list Effect * list Effect :=
  match l with
  | [] => ([], [])
  | e :: l' =>
      if suspends e then ([e], l')
      else match next_segment l' with
           | (segment, rest) => (e :: segment, rest)
           end
  end.

(** The component and, for every run started so far, the calls it has
    still to make; a run that has ended has none left. *)
Record Page : Type := mkPage {
  component : YouTubeChannelForm.Component;
  runs : list (list Effect)
}.


Inductive Event : Type :=
| Edit (values : FormValues)                 (* the user types *)
| Submit (env : YouTubeChannelForm.Env)      (* a submit event reaches the form *)
| Press (env : YouTubeChannelForm.Env)       (* the submit button is pressed *)
| Settle (i : nat).                          (* the promise run [i] awaits settles *)

Fixpoint set_nth {A} (i : nat) (a : A) (l : list A) : list A :=
  match l, i with
  | [], _ => []
  | _ :: l', O => a :: l'
  | x :: l', S i' => x :: set_nth i' a l'
  end.

(** [form.handleSubmit(onSubmit)] on a submit event: values that pass the
    schema start a run, which goes as far as its first [await].  Nothing
    here tests [isLoading]. *)
Definition begin (env : YouTubeChannelForm.Env) (p : Page) : Page :=
  if YouTubeChannelForm.formSchema (YouTubeChannelForm.form (component p))
  then
    match next_segment
            (log_of (run_async
                       (YouTubeChannelForm.onSubmit env
                          (YouTubeChannelForm.form (component p)))
                       (component p)))
    with
    | (segment, rest) =>
        {| component := replay segment (component p);
           runs := (runs p ++ [rest])%list |}
    end
  else p.

(** Run [i] goes on to its next [await], or to its end. *)
Definition settle (i : nat) (p : Page) : Page :=
  match nth_error (runs p) i with
  | Some r =>
      match next_segment r with
      | (segment, rest) =>
          {| component := replay segment (component p);
             runs := set_nth i rest (runs p) |}
      end
  | None => p
  end.

Definition step (p : Page) (e : Event) : Page :=
  match e with
  | Edit values =>
      {| component :=
           {| YouTubeChannelForm.isLoading :=
                YouTubeChannelForm.isLoading (component p);
              YouTubeChannelForm.form := values |};
         runs := runs p |}
  | Submit env => begin env p
  | Press env =>
      if YouTubeChannelForm.submit_disabled (component p) then p
      else begin env p
  | Settle i => settle i p
  end.

Definition run_events (events : list Event) (p : Page) : Page :=
  fold_left step events p.






End Mounted.

(** ** The browser history *)

(** The history the router of [navigate] moves in.  The router is not part
    of the sources; what it does is taken from section 6 of the spec. *)
Module History.

Record History : Type := mkHistory {
  back : list string;
  here : string;
  forth : list string
}.

Definition step_back (h : History) : option History :=
  match back h with
  | [] => None
  | p :: ps => Some {| back := ps; here := p; forth := here h :: forth h |}
  end.

Definition step_forth (h : History) : option History :=
  match forth h with
  | [] => None
  | n :: ns => Some {| back := here h :: back h; here := n; forth := ns |}
  end.

Fixpoint iterate (f : History -> option History) (n : nat) (h : History)
    : option History :=
  match n with
  | O => Some h
  | S n' => match f h with
            | Some h' => iterate f n' h'
            | None => None
            end
  end.

(** Modelled from the spec: the router's "go back one step", which "may
    no-op or fail silently if no history" (section 6).  Going by a delta
    that the history cannot honour leaves the location as it is, and
    nothing is thrown. *)
Definition go (h : History) (delta : Z) : History :=
  match (if (delta <? 0)%Z
         then iterate step_back (Z.to_nat (- delta)) h
         else iterate step_forth (Z.to_nat delta) h)
  with
  | Some h' => h'
  | None => h
  end.

(** Modelled from the spec: the router's "go to absolute route"
    (section 6), which enters the route after the current location. *)
Definition push (h : History) (route : string) : History :=
  {| back := here h :: back h; here := route; forth := [] |}.

Definition visit (h : History) (target : NavTarget) : History :=
  match target with
  | NavDelta delta => go h delta
  | NavTo route => push h route
  end.

(** Where a sequence of navigations leaves the browser. *)
Definition location_after (h : History) (targets : list NavTarget) : History :=
  fold_left visit targets h.

(** The login page opened in a fresh tab: nothing to go back to. *)
Definition fresh_tab : History :=
  {| back := []; here := "/login"; forth := [] |}.

End History.

(** A first visit on that router: the account is created, the retry
    succeeds, and no [navigate] throws. *)
Definition env_first_visit_silent : Login.Env :=
  Login.sample_env (Some Login.invalid_credentials) None None None.

(** ** Proof steps *)

(** Unfold one run of [onSubmit] down to the answers of its collaborators. *)
Ltac run_onSubmit :=
  unfold log_of, state_of, rejection_of, run_async,
    YouTubeChannelForm.onSubmit, YouTubeChannelForm.onSubmit_try,
    try_finally, try_catch, YouTubeChannelForm.precheck_filters in *;
  cbn in *.

(** Case analysis on the next answer a run of [onSubmit] is waiting for. *)
Ltac next_answer env :=
  match goal with
  | |- context [YouTubeChannelForm.select_maybeSingle env ?t ?k ?f] =>
      destruct (YouTubeChannelForm.select_maybeSingle env t k f)
        as [[[?|] [?|]]|?]
  | |- context [YouTubeChannelForm.insert env ?t ?r] =>
      destruct (YouTubeChannelForm.insert env t r) as [[[?|]]|?]
  | |- context [YouTubeChannelForm.fetchYouTubeVideos env ?i] =>
      destruct (YouTubeChannelForm.fetchYouTubeVideos env i) as [[]|?]
  | |- context [YouTubeChannelForm.onSuccess env] =>
      destruct (YouTubeChannelForm.onSuccess env) as [[]|]
  | |- context [String.eqb ?x ?y] =>
      destruct (String.eqb x y)
  end; cbn in *.

(** Unfold one run of [checkSession]. *)
Ltac run_checkSession :=
  unfold log_of, state_of, rejection_of, run_async, Login.checkSession,
    Login.sign_in_console_user, Login.navigate_back, Login.navigate,
    try_catch in *;
  cbn in *.

(** Unfold one run of the first revision's [onSubmit]. *)
Ltac run_onSubmit_v1 :=
  unfold log_of, state_of, rejection_of, run_async,
    YouTubeChannelFormV1.onSubmit, YouTubeChannelFormV1.onSubmit_try,
    YouTubeChannelFormV1.onSubmit_catch, try_finally, try_catch in *;
  cbn in *.

(** Case analysis on the next answer a run of [checkSession] is waiting
    for. *)
Ltac next_auth_answer env :=
  match goal with
  | |- context [Login.getSession env] =>
      destruct (Login.getSession env) as [[[?|] [?|]]|?]
  | |- context [Login.signInWithPassword env ?n ?c] =>
      destruct (Login.signInWithPassword env n c) as [[[?|]]|?]
  | |- context [Login.signUp env ?c ?r] =>
      destruct (Login.signUp env c r) as [[[?|]]|?]
  | |- context [Login.history_go env ?d] =>
      destruct (Login.history_go env d) as [?|]
  end; cbn in *.

(** * Properties *)

(** ** Strings and logs *)

Lemma startsWith_at (s : string) :
  startsWith s "@" = true <-> exists rest, s = String "@"%char rest.
Proof.
  split.
  - destruct s as [|a rest]; cbn -[Ascii.eqb]; [discriminate|].
    rewrite andb_true_r. intros H%Ascii.eqb_eq. subst a. now exists rest.
  - intros [rest ->]. reflexivity.
Qed.

Lemma startsWith_app (p s : string) : startsWith (p ++ s) p = true.
Proof.
  induction p as [|a p IH]; [reflexivity|].
  cbn -[Ascii.eqb]. now rewrite Ascii.eqb_refl, IH.
Qed.

Lemma includes_startsWith (p s : string) :
  startsWith s p = true -> includes s p = true.
Proof.
  intros H. destruct s; cbn [includes]; now rewrite H.
Qed.

Lemma includes_app_r (p s t : string) :
  includes t p = true -> includes (s ++ t) p = true.
Proof.
  intros H. induction s as [|a s IH]; [exact H|].
  cbn [append includes]. rewrite IH. apply orb_true_r.
Qed.

(** ** The derived URL *)

Section SourceUrl.
Import YouTubeChannelForm.

Lemma make_source_url_handle (rest : string) :
  make_source_url (String "@"%char rest)
  = "https://www.youtube.com/" ++ String "@"%char rest.
Proof. reflexivity. Qed.

Lemma make_source_url_id (channelId : string) :
  startsWith channelId "@" = false ->
  make_source_url channelId = "https://www.youtube.com/channel/" ++ channelId.
Proof. intros H. unfold make_source_url. now rewrite H. Qed.

(** A handle's URL has a [channel/] segment exactly when the handle has. *)
Lemma handle_url_segment (rest : string) :
  has_channel_segment (make_source_url (String "@"%char rest))
  = has_channel_segment (String "@"%char rest).
Proof. reflexivity. Qed.

(** C2, as stated, fails: a channelId that starts with [@] and carries
    [/channel/] further on is appended as it is, so the derived URL has a
    [channel/] path segment although the channelId starts with [@]. *)
Lemma source_url_segment_counterexample :
  ~ (has_channel_segment (make_source_url "@a/channel/b") = true
     <-> startsWith "@a/channel/b" "@" = false).
Proof.
  intros [H _]. specialize (H eq_refl). discriminate H.
Qed.

(** C2, amended: for every channelId, the derived source_url continues the
    base [https://www.youtube.com/] with [channel/] if and only if the
    channelId does not start with [@]; and for every channelId that has no
    [channel/] path segment of its own, the derived source_url contains a
    [channel/] path segment if and only if the channelId does not start
    with [@]. *)
Theorem source_url_channel_segment (channelId : string) :
  (startsWith (make_source_url channelId) "https://www.youtube.com/channel/" = true
   <-> startsWith channelId "@" = false)
  /\ (has_channel_segment channelId = false ->
      (has_channel_segment (make_source_url channelId) = true
       <-> startsWith channelId "@" = false)).
Proof.
  destruct (startsWith channelId "@") eqn:At.
  - apply startsWith_at in At. destruct At as [rest ->].
    split.
    + split; intros H; discriminate H.
    + intros Hno. rewrite handle_url_segment, Hno.
      split; intros H; discriminate H.
  - rewrite (make_source_url_id _ At). split.
    + split; [reflexivity|]. intros _.
      apply (startsWith_app "https://www.youtube.com/channel/").
    + intros _. split; [reflexivity|]. intros _.
      unfold has_channel_segment.
      apply (includes_app_r "/channel/" "https://www.youtube.com"
                            ("/channel/" ++ channelId)).
      apply includes_startsWith, startsWith_app.
Qed.

Lemma source_url_channel_segment_witness :
  has_channel_segment "@cmfionline" = false
  /\ (has_channel_segment (make_source_url "@cmfionline") = true
      <-> startsWith "@cmfionline" "@" = false).
Proof.
  split; [reflexivity|].
  apply (proj2 (source_url_channel_segment "@cmfionline")). reflexivity.
Defined.

End SourceUrl.

(** ** Channel registration *)

Section Registration.
Import YouTubeChannelForm.

(** The insert is reached only past a pre-check that resolved with neither
    error nor row. *)
Lemma insert_attempted_after_clean_precheck
    (env : Env) (values : FormValues) (c : Component) :
  existsb is_insert (log_of (run_async (onSubmit env values) c)) = true ->
  select_maybeSingle env "content_sources" "id"
      [("type", "youtube"); ("source_id", fv_channelId values)]
    = Resolved {| sel_data := None; sel_error := None |}.
Proof.
  run_onSubmit.
  destruct (select_maybeSingle env _ _ _) as [[[row|] [err|]]|x]; cbn;
    intros H; try discriminate H.
  reflexivity.
Qed.

(** C1: when the pre-check finds a record for the submitted channelId, the
    only notification is "Channel already exists" and no insert is issued. *)
Theorem existing_channel_is_not_inserted
    (env : Env) (values : FormValues) (c : Component) (existingChannel : IdRow) :
  select_maybeSingle env "content_sources" "id"
      [("type", "youtube"); ("source_id", fv_channelId values)]
    = Resolved {| sel_data := Some existingChannel; sel_error := None |} ->
  toasts (log_of (run_async (onSubmit env values) c)) = [already_exists_toast]
  /\ existsb is_insert (log_of (run_async (onSubmit env values) c)) = false
  /\ rejection_of (run_async (onSubmit env values) c) = None.
Proof.
  intros Found. run_onSubmit. rewrite Found. cbn. repeat split.
Qed.

Lemma existing_channel_is_not_inserted_witness :
  select_maybeSingle env_found "content_sources" "id"
      [("type", "youtube"); ("source_id", fv_channelId sample_values)]
    = Resolved {| sel_data := Some {| id := "41" |}; sel_error := None |}
  /\ toasts (log_of (run_async (onSubmit env_found sample_values) sample_component))
      = [already_exists_toast]
  /\ existsb is_insert
       (log_of (run_async (onSubmit env_found sample_values) sample_component))
      = false
  /\ rejection_of (run_async (onSubmit env_found sample_values) sample_component)
      = None.
Proof.
  split; [reflexivity|].
  apply (existing_channel_is_not_inserted env_found sample_values
           sample_component {| id := "41" |}).
  reflexivity.
Defined.

(** C4: an insert that fails with the unique-violation code 23505 is
    reported as "Channel already exists", and the generic failure
    notification is not shown. *)
Theorem unique_violation_is_already_exists
    (env : Env) (values : FormValues) (c : Component) (error : PostgrestError) :
  existsb is_insert (log_of (run_async (onSubmit env values) c)) = true ->
  insert env "content_sources" (new_row values)
    = Resolved {| ins_error := Some error |} ->
  code error = "23505" ->
  toasts (log_of (run_async (onSubmit env values) c)) = [already_exists_toast]
  /\ ~ In (ShowToast error_toast) (log_of (run_async (onSubmit env values) c)).
Proof.
  intros Attempted Failed Code.
  apply insert_attempted_after_clean_precheck in Attempted.
  run_onSubmit. rewrite Attempted. cbn. rewrite Failed. cbn.
  rewrite Code. cbn. split; [reflexivity|].
  intros In_log. repeat (destruct In_log as [E|In_log]; [discriminate E|]).
  exact In_log.
Qed.

Lemma unique_violation_is_already_exists_witness :
  toasts (log_of (run_async (onSubmit env_unique_violation sample_values)
                            sample_component))
    = [already_exists_toast]
  /\ ~ In (ShowToast error_toast)
         (log_of (run_async (onSubmit env_unique_violation sample_values)
                            sample_component)).
Proof.
  apply (unique_violation_is_already_exists env_unique_violation sample_values
           sample_component unique_violation); reflexivity.
Defined.

(** C5: an insert that fails with the permission-denied code 42501 ends in
    a navigation to [/login]; nothing is notified, and after the insert the
    handler makes no further call of the registration (no fetch, no form
    reset, no callback). *)
Theorem permission_denied_redirects_to_login
    (env : Env) (values : FormValues) (c : Component) (error : PostgrestError) :
  existsb is_insert (log_of (run_async (onSubmit env values) c)) = true ->
  insert env "content_sources" (new_row values)
    = Resolved {| ins_error := Some error |} ->
  code error = "42501" ->
  navigations (log_of (run_async (onSubmit env values) c)) = [NavTo "/login"]
  /\ toasts (log_of (run_async (onSubmit env values) c)) = []
  /\ log_of (run_async (onSubmit env values) c)
     = [SetIsLoading true;
        Select "content_sources" "id"
          [("type", "youtube"); ("source_id", fv_channelId values)];
        Insert "content_sources" (new_row values);
        ConsoleError "Error details:" (ThrownPostgrest error);
        Navigate (NavTo "/login");
        SetIsLoading false]
  /\ rejection_of (run_async (onSubmit env values) c) = None.
Proof.
  intros Attempted Failed Code.
  apply insert_attempted_after_clean_precheck in Attempted.
  run_onSubmit. rewrite Attempted. cbn. rewrite Failed. cbn.
  rewrite Code. cbn. repeat split.
Qed.

Lemma permission_denied_redirects_to_login_witness :
  navigations (log_of (run_async (onSubmit env_permission_denied sample_values)
                                 sample_component))
    = [NavTo "/login"]
  /\ toasts (log_of (run_async (onSubmit env_permission_denied sample_values)
                               sample_component)) = []
  /\ log_of (run_async (onSubmit env_permission_denied sample_values)
                       sample_component)
     = [SetIsLoading true;
        Select "content_sources" "id"
          [("type", "youtube"); ("source_id", fv_channelId sample_values)];
        Insert "content_sources" (new_row sample_values);
        ConsoleError "Error details:" (ThrownPostgrest permission_denied);
        Navigate (NavTo "/login");
        SetIsLoading false]
  /\ rejection_of (run_async (onSubmit env_permission_denied sample_values)
                             sample_component) = None.
Proof.
  apply (permission_denied_redirects_to_login env_permission_denied
           sample_values sample_component permission_denied); reflexivity.
Defined.




(** C3, as stated, fails: the fetch is awaited inside the [try] block, so a
    fetch that rejects after a successful insert is caught as a failure of
    the submission, and neither the form reset nor the callback is reached. *)
Lemma fetch_outcome_counterexample :
  insert env_fetch_rejected "content_sources" (new_row sample_values)
    = Resolved {| ins_error := None |}
  /\ onSuccess env_fetch_rejected = Some tt
  /\ existsb is_insert
       (log_of (run_async (onSubmit env_fetch_rejected sample_values)
                          sample_component)) = true
  /\ toasts (log_of (run_async (onSubmit env_fetch_rejected sample_values)
                               sample_component))
     = [added_toast; error_toast]
  /\ ~ (In FormReset
          (log_of (run_async (onSubmit env_fetch_rejected sample_values)
                             sample_component))
        /\ In OnSuccess
             (log_of (run_async (onSubmit env_fetch_rejected sample_values)
                                sample_component))).
Proof.
  repeat (split; [reflexivity|]).
  intros [Was_reset _]. cbn in Was_reset.
  repeat (destruct Was_reset as [E|Was_reset]; [discriminate E|]).
  exact Was_reset.
Qed.

(** C3, amended: on a successful insert the handler notifies success and
    calls the video-fetch job for the submitted channel, whose outcome it
    awaits.  When the fetch resolves, the form is reset and the completion
    callback is invoked when one is supplied; when the fetch rejects, the
    error is logged and the generic failure is notified, with neither reset
    nor callback. *)
Theorem successful_insert_awaits_fetch
    (env : Env) (values : FormValues) (c : Component) :
  existsb is_insert (log_of (run_async (onSubmit env values) c)) = true ->
  insert env "content_sources" (new_row values)
    = Resolved {| ins_error := None |} ->
  log_of (run_async (onSubmit env values) c)
  = ([SetIsLoading true;
      Select "content_sources" "id"
        [("type", "youtube"); ("source_id", fv_channelId values)];
      Insert "content_sources" (new_row values);
      ShowToast added_toast;
      FetchYouTubeVideos (fv_channelId values)]
     ++ match fetchYouTubeVideos env (fv_channelId values) with
        | Resolved _ =>
            FormReset :: (if truthy (onSuccess env) then [OnSuccess] else [])
        | Rejected x =>
            [ConsoleError "Error adding channel:" x; ShowToast error_toast]
        end
     ++ [SetIsLoading false])%list.
Proof.
  intros Attempted Inserted.
  apply insert_attempted_after_clean_precheck in Attempted.
  run_onSubmit. rewrite Attempted. cbn. rewrite Inserted. cbn.
  destruct (fetchYouTubeVideos env (fv_channelId values)) as [[]|x]; cbn;
    [|reflexivity].
  destruct (onSuccess env) as [[]|]; reflexivity.
Qed.

Lemma successful_insert_awaits_fetch_witness :
  log_of (run_async (onSubmit env_added sample_values) sample_component)
  = [SetIsLoading true;
     Select "content_sources" "id" [("type", "youtube"); ("source_id", "UC123")];
     Insert "content_sources" (new_row sample_values);
     ShowToast added_toast;
     FetchYouTubeVideos "UC123";
     FormReset;
     OnSuccess;
     SetIsLoading false].
Proof.
  apply (successful_insert_awaits_fetch env_added sample_values sample_component);
    reflexivity.
Defined.

(** C10: the form is reset exactly on the path on which the pre-check, the
    insert and the fetch all succeed; on every other path the form holds at
    the end the values it held at the start. *)
Theorem form_reset_only_on_full_success
    (env : Env) (values : FormValues) (c : Component) :
  existsb is_form_reset (log_of (run_async (onSubmit env values) c))
    = full_success env values
  /\ form (state_of (run_async (onSubmit env values) c))
     = if full_success env values then defaultValues else form c.
Proof.
  unfold full_success. run_onSubmit.
  repeat next_answer env; split; reflexivity.
Qed.

End Registration.

(** ** Session bootstrap *)

Section Bootstrap.
Import Login.

(** [navigate_back] issues [navigate(-1)], and [navigate("/admin")] too when
    the former throws; it never throws itself. *)
Lemma navigate_back_log (env : Env) (l : list Effect) :
  navigate_back env tt l
  = (Normal tt, tt,
     (l ++ Navigate (NavDelta (-1))
        :: match history_go env (-1) with
           | Some _ => [Navigate (NavTo "/admin")]
           | None => []
           end)%list).
Proof.
  unfold navigate_back, navigate, try_catch. cbn.
  destruct (history_go env (-1)) as [e|]; cbn; [|reflexivity].
  now rewrite <- app_assoc.
Qed.

(** C6: with no session, a failing sign-in and a failing sign-up,
    [checkSession] ends after notifying the sign-up error: it issues no
    navigation and does not retry the sign-in. *)
Theorem failed_sign_up_stops_bootstrap
    (env : Env) (signInError signUpError : AuthError) :
  getSession env = Resolved {| session := None; session_error := None |} ->
  signInWithPassword env 0 console_user
    = Resolved {| auth_error := Some signInError |} ->
  signUp env console_user "admin"
    = Resolved {| auth_error := Some signUpError |} ->
  toasts (log_of (run_async (checkSession env) tt))
    = [sign_up_error_toast signUpError]
  /\ navigations (log_of (run_async (checkSession env) tt)) = []
  /\ log_of (run_async (checkSession env) tt)
     = [GetSession;
        SignInWithPassword console_user;
        SignUp console_user "admin";
        ConsoleError "Error signing up:" (ThrownAuth signUpError);
        ShowToast (sign_up_error_toast signUpError)]
  /\ rejection_of (run_async (checkSession env) tt) = None.
Proof.
  intros NoSession SignInFailed SignUpFailed.
  run_checkSession.
  rewrite NoSession. cbn. rewrite SignInFailed. cbn. rewrite SignUpFailed. cbn.
  repeat split.
Qed.

Lemma failed_sign_up_stops_bootstrap_witness :
  toasts (log_of (run_async (checkSession env_no_account) tt))
    = [sign_up_error_toast signups_disabled]
  /\ navigations (log_of (run_async (checkSession env_no_account) tt)) = []
  /\ log_of (run_async (checkSession env_no_account) tt)
     = [GetSession;
        SignInWithPassword console_user;
        SignUp console_user "admin";
        ConsoleError "Error signing up:" (ThrownAuth signups_disabled);
        ShowToast (sign_up_error_toast signups_disabled)]
  /\ rejection_of (run_async (checkSession env_no_account) tt) = None.
Proof.
  apply (failed_sign_up_stops_bootstrap env_no_account invalid_credentials
           signups_disabled); reflexivity.
Defined.

(** With no session, a failing sign-in, a successful sign-up and a
    successful retry of the sign-in, [checkSession] notifies nothing and
    calls [navigate(-1)]; it calls [navigate("/admin")] after it exactly
    when that call throws. *)
Theorem sign_up_then_retry_navigates_back
    (env : Env) (signInError : AuthError) :
  getSession env = Resolved {| session := None; session_error := None |} ->
  signInWithPassword env 0 console_user
    = Resolved {| auth_error := Some signInError |} ->
  signUp env console_user "admin" = Resolved {| auth_error := None |} ->
  signInWithPassword env 1 console_user = Resolved {| auth_error := None |} ->
  navigations (log_of (run_async (checkSession env) tt))
    = match history_go env (-1) with
      | None => [NavDelta (-1)]
      | Some _ => [NavDelta (-1); NavTo "/admin"]
      end
  /\ toasts (log_of (run_async (checkSession env) tt)) = []
  /\ rejection_of (run_async (checkSession env) tt) = None.
Proof.
  intros NoSession SignInFailed Created Retry.
  unfold log_of, rejection_of, run_async, checkSession, sign_in_console_user.
  cbn -[navigate_back].
  rewrite NoSession. cbn -[navigate_back].
  rewrite SignInFailed. cbn -[navigate_back].
  rewrite Created. cbn -[navigate_back].
  rewrite Retry. cbn -[navigate_back].
  rewrite navigate_back_log. cbn.
  destruct (history_go env (-1)) as [e|]; repeat split.
Qed.

Lemma sign_up_then_retry_navigates_back_witness :
  navigations (log_of (run_async (checkSession env_first_visit) tt))
    = [NavDelta (-1); NavTo "/admin"]
  /\ toasts (log_of (run_async (checkSession env_first_visit) tt)) = []
  /\ rejection_of (run_async (checkSession env_first_visit) tt) = None.
Proof.
  apply (sign_up_then_retry_navigates_back env_first_visit invalid_credentials);
    reflexivity.
Defined.

End Bootstrap.

(** ** More on the derived URL *)

Section SourceUrlMore.
Import YouTubeChannelForm.

Lemma append_cancel_l (p a b : string) : p ++ a = p ++ b -> a = b.
Proof.
  induction p as [|x p IH]; cbn; intros H; [exact H|].
  injection H as H. now apply IH.
Qed.

(** Distinct channel identifiers never share a source URL: a handle's URL
    continues the base with [@], an id's with [channel/], and either way the
    identifier follows as it was typed. *)
Theorem make_source_url_injective (a b : string) :
  make_source_url a = make_source_url b -> a = b.
Proof.
  unfold make_source_url. intros H. apply append_cancel_l in H.
  destruct (startsWith a "@") eqn:Ha, (startsWith b "@") eqn:Hb.
  - exact H.
  - apply startsWith_at in Ha. destruct Ha as [rest ->]. discriminate H.
  - apply startsWith_at in Hb. destruct Hb as [rest ->]. discriminate H.
  - now apply (append_cancel_l "channel/").
Qed.

Lemma make_source_url_injective_witness :
  ("@cmfionline" : string) = "@cmfionline".
Proof.
  apply (make_source_url_injective "@cmfionline" "@cmfionline"). reflexivity.
Defined.

End SourceUrlMore.

(** ** More on channel registration *)

Section RegistrationMore.
Import YouTubeChannelForm.

(** Every run starts by setting the flag. *)
Lemma onSubmit_log_head (env : Env) (values : FormValues) (c : Component) :
  exists rest,
    log_of (run_async (onSubmit env values) c) = SetIsLoading true :: rest.
Proof.
  run_onSubmit. repeat next_answer env; eexists; reflexivity.
Qed.

(** Where a run leaves the component. *)
Lemma onSubmit_final_state (env : Env) (values : FormValues) (c : Component) :
  state_of (run_async (onSubmit env values) c)
  = {| isLoading := false;
       form := if full_success env values then defaultValues else form c |}.
Proof.
  unfold full_success. run_onSubmit. repeat next_answer env; reflexivity.
Qed.

Lemma formSchema_false (values : FormValues) :
  formSchema values = false
  <-> fv_name values = "" \/ fv_channelId values = "".
Proof.
  unfold formSchema.
  destruct (fv_name values) as [|x n], (fv_channelId values) as [|y i]; cbn;
    split; intros H; auto; try discriminate H.
  destruct H as [H|H]; discriminate H.
Qed.

(** The promise of [onSubmit] never rejects: whatever is thrown in the
    [try] block, be it an error object of the store or a rejected await, is
    caught in the handler. *)
Theorem onSubmit_never_rejects (env : Env) (values : FormValues) (c : Component) :
  rejection_of (run_async (onSubmit env values) c) = None.
Proof.
  run_onSubmit. repeat next_answer env; reflexivity.
Qed.

(** The pre-check's error is tested before its row: a pre-check that
    resolves with an error ends the run as a generic failure, with no
    insert, whatever it answers as data. *)
Theorem precheck_error_is_generic_failure
    (env : Env) (values : FormValues) (c : Component)
    (row : option IdRow) (checkError : PostgrestError) :
  select_maybeSingle env "content_sources" "id"
      [("type", "youtube"); ("source_id", fv_channelId values)]
    = Resolved {| sel_data := row; sel_error := Some checkError |} ->
  log_of (run_async (onSubmit env values) c)
  = [SetIsLoading true;
     Select "content_sources" "id"
       [("type", "youtube"); ("source_id", fv_channelId values)];
     ConsoleError "Error checking existing channel:" (ThrownPostgrest checkError);
     ConsoleError "Error adding channel:" (ThrownPostgrest checkError);
     ShowToast error_toast;
     SetIsLoading false].
Proof.
  intros Failed. run_onSubmit. rewrite Failed. reflexivity.
Qed.

Lemma precheck_error_is_generic_failure_witness :
  log_of (run_async (onSubmit env_precheck_error sample_values) sample_component)
  = [SetIsLoading true;
     Select "content_sources" "id" [("type", "youtube"); ("source_id", "UC123")];
     ConsoleError "Error checking existing channel:"
       (ThrownPostgrest statement_timeout);
     ConsoleError "Error adding channel:" (ThrownPostgrest statement_timeout);
     ShowToast error_toast;
     SetIsLoading false].
Proof.
  apply (precheck_error_is_generic_failure env_precheck_error sample_values
           sample_component None statement_timeout).
  reflexivity.
Defined.

(** An insert error whose code is neither 42501 nor 23505 is thrown to the
    handler: the generic failure is notified, and there is no navigation,
    no fetch and no form reset. *)
Theorem other_insert_error_is_generic_failure
    (env : Env) (values : FormValues) (c : Component) (error : PostgrestError) :
  existsb is_insert (log_of (run_async (onSubmit env values) c)) = true ->
  insert env "content_sources" (new_row values)
    = Resolved {| ins_error := Some error |} ->
  code error <> "42501" ->
  code error <> "23505" ->
  log_of (run_async (onSubmit env values) c)
  = [SetIsLoading true;
     Select "content_sources" "id"
       [("type", "youtube"); ("source_id", fv_channelId values)];
     Insert "content_sources" (new_row values);
     ConsoleError "Error details:" (ThrownPostgrest error);
     ConsoleError "Error adding channel:" (ThrownPostgrest error);
     ShowToast error_toast;
     SetIsLoading false].
Proof.
  intros Attempted Failed Not_denied Not_duplicate.
  apply insert_attempted_after_clean_precheck in Attempted.
  apply String.eqb_neq in Not_denied, Not_duplicate.
  run_onSubmit. rewrite Attempted. cbn. rewrite Failed. cbn.
  rewrite Not_denied. cbn. rewrite Not_duplicate. reflexivity.
Qed.

Lemma other_insert_error_is_generic_failure_witness :
  log_of (run_async (onSubmit env_insert_timeout sample_values) sample_component)
  = [SetIsLoading true;
     Select "content_sources" "id" [("type", "youtube"); ("source_id", "UC123")];
     Insert "content_sources" (new_row sample_values);
     ConsoleError "Error details:" (ThrownPostgrest statement_timeout);
     ConsoleError "Error adding channel:" (ThrownPostgrest statement_timeout);
     ShowToast error_toast;
     SetIsLoading false].
Proof.
  apply (other_insert_error_is_generic_failure env_insert_timeout sample_values
           sample_component statement_timeout);
    [reflexivity | reflexivity | discriminate | discriminate].
Defined.

(** One run issues exactly one pre-check, at most one insert, a fetch only
    when it has inserted, and at most two notifications. *)
Theorem onSubmit_call_counts (env : Env) (values : FormValues) (c : Component) :
  count is_select (log_of (run_async (onSubmit env values) c)) = 1
  /\ count is_insert (log_of (run_async (onSubmit env values) c)) <= 1
  /\ count is_fetch (log_of (run_async (onSubmit env values) c))
     <= count is_insert (log_of (run_async (onSubmit env values) c))
  /\ length (toasts (log_of (run_async (onSubmit env values) c))) <= 2.
Proof.
  run_onSubmit. unfold count.
  repeat next_answer env; cbn; repeat split; lia.
Qed.

(** Every run ends with feedback to the user, of one kind only: either it
    notifies and does not navigate, or it notifies nothing and navigates to
    [/login]. *)
Theorem onSubmit_notifies_or_redirects
    (env : Env) (values : FormValues) (c : Component) :
  (toasts (log_of (run_async (onSubmit env values) c)) <> []
   /\ navigations (log_of (run_async (onSubmit env values) c)) = [])
  \/ (toasts (log_of (run_async (onSubmit env values) c)) = []
      /\ navigations (log_of (run_async (onSubmit env values) c))
         = [NavTo "/login"]).
Proof.
  run_onSubmit.
  repeat next_answer env;
    solve [ left; split; [discriminate | reflexivity]
          | right; split; reflexivity ].
Qed.

(** The handler navigates only on the permission-denied code: a run that
    navigates has inserted and got an error of code 42501 back. *)
Theorem navigation_means_permission_denied
    (env : Env) (values : FormValues) (c : Component) :
  navigations (log_of (run_async (onSubmit env values) c)) <> [] ->
  exists error,
    insert env "content_sources" (new_row values)
      = Resolved {| ins_error := Some error |}
    /\ code error = "42501"
    /\ existsb is_insert (log_of (run_async (onSubmit env values) c)) = true.
Proof.
  run_onSubmit.
  destruct (select_maybeSingle env _ _ _) as [[[row|] [err|]]|x]; cbn;
    try (intros H; now contradiction H).
  destruct (insert env _ _) as [[[error|]]|x]; cbn.
  - destruct (String.eqb (code error) "42501") eqn:Denied; cbn.
    + intros _. exists error. apply String.eqb_eq in Denied. now repeat split.
    + destruct (String.eqb (code error) "23505"); cbn;
        intros H; now contradiction H.
  - destruct (fetchYouTubeVideos env _) as [[]|x]; cbn;
      [destruct (onSuccess env) as [[]|]; cbn|]; intros H; now contradiction H.
  - intros H; now contradiction H.
Qed.

Lemma navigation_means_permission_denied_witness :
  exists error,
    insert env_permission_denied "content_sources" (new_row sample_values)
      = Resolved {| ins_error := Some error |}
    /\ code error = "42501"
    /\ existsb is_insert
         (log_of (run_async (onSubmit env_permission_denied sample_values)
                            sample_component)) = true.
Proof.
  apply (navigation_means_permission_denied env_permission_denied sample_values
           sample_component).
  discriminate.
Defined.

(** "Channel already exists" is shown on evidence only: the pre-check has
    found a row, or the insert has come back with the unique-violation code
    23505. *)
Theorem duplicate_notice_has_evidence
    (env : Env) (values : FormValues) (c : Component) :
  In (ShowToast already_exists_toast) (log_of (run_async (onSubmit env values) c)) ->
  (exists existingChannel,
      select_maybeSingle env "content_sources" "id"
          [("type", "youtube"); ("source_id", fv_channelId values)]
        = Resolved {| sel_data := Some existingChannel; sel_error := None |})
  \/ (exists error,
        insert env "content_sources" (new_row values)
          = Resolved {| ins_error := Some error |}
        /\ code error = "23505").
Proof.
  run_onSubmit.
  destruct (select_maybeSingle env _ _ _) as [[[row|] [err|]]|x]; cbn;
    try (intros H; repeat (destruct H as [E|H]; [discriminate E|]); now exfalso).
  - intros _. left. now exists row.
  - destruct (insert env _ _) as [[[error|]]|x]; cbn.
    + destruct (String.eqb (code error) "42501"); cbn;
        [intros H; repeat (destruct H as [E|H]; [discriminate E|]); now exfalso|].
      destruct (String.eqb (code error) "23505") eqn:Duplicate; cbn.
      * intros _. right. exists error. apply String.eqb_eq in Duplicate. now split.
      * intros H; repeat (destruct H as [E|H]; [discriminate E|]); now exfalso.
    + destruct (fetchYouTubeVideos env _) as [[]|x]; cbn;
        [destruct (onSuccess env) as [[]|]; cbn|];
        intros H; repeat (destruct H as [E|H]; [discriminate E|]); now exfalso.
    + intros H; repeat (destruct H as [E|H]; [discriminate E|]); now exfalso.
Qed.

Lemma duplicate_notice_has_evidence_witness :
  (exists existingChannel,
      select_maybeSingle env_unique_violation "content_sources" "id"
          [("type", "youtube"); ("source_id", fv_channelId sample_values)]
        = Resolved {| sel_data := Some existingChannel; sel_error := None |})
  \/ (exists error,
        insert env_unique_violation "content_sources" (new_row sample_values)
          = Resolved {| ins_error := Some error |}
        /\ code error = "23505").
Proof.
  apply (duplicate_notice_has_evidence env_unique_violation sample_values
           sample_component).
  cbn. tauto.
Defined.

End RegistrationMore.

(** ** Validation and resubmission *)

Section Resubmission.
Import YouTubeChannelForm.

(** The video fetch is called for the submitted channel only, and only
    after the row has been inserted without error and the success
    notified. *)
Theorem fetch_follows_successful_insert
    (env : Env) (values : FormValues) (c : Component) (channelId : string) :
  In (FetchYouTubeVideos channelId) (log_of (run_async (onSubmit env values) c)) ->
  channelId = fv_channelId values
  /\ insert env "content_sources" (new_row values)
     = Resolved {| ins_error := None |}
  /\ exists before after,
       log_of (run_async (onSubmit env values) c)
       = (before ++ [Insert "content_sources" (new_row values);
                     ShowToast added_toast;
                     FetchYouTubeVideos channelId] ++ after)%list.
Proof.
  run_onSubmit.
  destruct (select_maybeSingle env _ _ _) as [[[row|] [err|]]|x]; cbn;
    try (intros H; repeat (destruct H as [E|H]; [discriminate E|]); now exfalso).
  destruct (insert env _ _) as [[[error|]]|x]; cbn.
  - destruct (String.eqb (code error) "42501"); cbn;
      [|destruct (String.eqb (code error) "23505"); cbn];
      intros H; repeat (destruct H as [E|H]; [discriminate E|]); now exfalso.
  - intros H.
    assert (channelId = fv_channelId values) as ->.
    { destruct (fetchYouTubeVideos env _) as [[]|x]; cbn in H;
        [destruct (onSuccess env) as [[]|]; cbn in H|];
        repeat (destruct H as [E|H];
                [first [discriminate E | injection E as E; now symmetry]|]);
        now exfalso. }
    split; [reflexivity|]. split; [reflexivity|].
    exists [SetIsLoading true;
            Select "content_sources" "id"
              [("type", "youtube"); ("source_id", fv_channelId values)]].
    destruct (fetchYouTubeVideos env _) as [[]|x]; cbn;
      [destruct (onSuccess env) as [[]|]; cbn|]; eexists; reflexivity.
  - intros H; repeat (destruct H as [E|H]; [discriminate E|]); now exfalso.
Qed.

Lemma fetch_follows_successful_insert_witness :
  ("UC123" : string) = fv_channelId sample_values
  /\ insert env_added "content_sources" (new_row sample_values)
     = Resolved {| ins_error := None |}
  /\ exists before after,
       log_of (run_async (onSubmit env_added sample_values) sample_component)
       = (before ++ [Insert "content_sources" (new_row sample_values);
                     ShowToast added_toast;
                     FetchYouTubeVideos "UC123"] ++ after)%list.
Proof.
  apply (fetch_follows_successful_insert env_added sample_values
           sample_component "UC123").
  cbn. tauto.
Defined.

(** A submission makes no call at all, and leaves the component as it is,
    exactly when the name or the channel identifier is empty. *)
Theorem empty_field_blocks_submission (env : Env) (c : Component) :
  (fv_name (form c) = "" \/ fv_channelId (form c) = "" ->
   handleSubmit env c = (None, c, []))
  /\ (log_of (handleSubmit env c) = [] ->
      fv_name (form c) = "" \/ fv_channelId (form c) = "").
Proof.
  unfold handleSubmit. split.
  - intros Empty. apply formSchema_false in Empty. now rewrite Empty.
  - destruct (formSchema (form c)) eqn:Valid.
    + destruct (onSubmit_log_head env (form c) c) as [rest ->]. discriminate.
    + intros _. now apply formSchema_false.
Qed.

Lemma empty_field_blocks_submission_witness :
  handleSubmit env_added blank_component = (None, blank_component, []).
Proof.
  apply (proj1 (empty_field_blocks_submission env_added blank_component)).
  right. reflexivity.
Defined.

(** After a submission on which everything succeeded the form is back to
    its empty defaults, so submitting again without typing is stopped by
    the schema and makes no call, whatever the collaborators would answer. *)
Theorem resubmission_after_success_is_blocked
    (env env' : Env) (c : Component) :
  formSchema (form c) = true ->
  full_success env (form c) = true ->
  handleSubmit env' (state_of (handleSubmit env c))
  = (None, {| isLoading := false; form := defaultValues |}, []).
Proof.
  intros Valid Success. unfold handleSubmit at 2. rewrite Valid.
  rewrite onSubmit_final_state, Success. reflexivity.
Qed.

Lemma resubmission_after_success_is_blocked_witness :
  handleSubmit env_unique_violation
    (state_of (handleSubmit env_added sample_component))
  = (None, {| isLoading := false; form := defaultValues |}, []).
Proof.
  apply (resubmission_after_success_is_blocked env_added env_unique_violation
           sample_component); reflexivity.
Defined.

(** A submission that does not succeed in full leaves an idle component
    exactly as it was, typed values included: submitting again is the same
    as submitting for the first time. *)
Theorem failed_submission_keeps_component
    (env env' : Env) (c : Component) :
  isLoading c = false ->
  full_success env (form c) = false ->
  state_of (handleSubmit env c) = c
  /\ handleSubmit env' (state_of (handleSubmit env c)) = handleSubmit env' c.
Proof.
  intros Idle Failure.
  assert (state_of (handleSubmit env c) = c) as Same.
  { unfold handleSubmit. destruct (formSchema (form c)); [|reflexivity].
    rewrite onSubmit_final_state, Failure.
    destruct c as [flag values]. cbn in *. now subst flag. }
  split; [exact Same|]. now rewrite Same.
Qed.

Lemma failed_submission_keeps_component_witness :
  state_of (handleSubmit env_unique_violation sample_component) = sample_component
  /\ handleSubmit env_added
       (state_of (handleSubmit env_unique_violation sample_component))
     = handleSubmit env_added sample_component.
Proof.
  apply (failed_submission_keeps_component env_unique_violation env_added
           sample_component); reflexivity.
Defined.

End Resubmission.

(** ** The first revision of the form *)

Section FirstRevision.
Import YouTubeChannelForm.

(** On every path the first revision issues its one insert, notifies
    exactly once, success when the insert resolved without error and the
    generic failure otherwise, resets the form on success only, never
    rejects and leaves the flag cleared. *)
Theorem first_revision_outcome
    (env : YouTubeChannelFormV1.Env) (values : FormValues) (c : Component) :
  count is_insert (log_of (run_async (YouTubeChannelFormV1.onSubmit env values) c)) = 1
  /\ toasts (log_of (run_async (YouTubeChannelFormV1.onSubmit env values) c))
     = [if YouTubeChannelFormV1.inserted env values
        then added_toast else error_toast]
  /\ state_of (run_async (YouTubeChannelFormV1.onSubmit env values) c)
     = {| isLoading := false;
          form := if YouTubeChannelFormV1.inserted env values
                  then defaultValues else form c |}
  /\ rejection_of (run_async (YouTubeChannelFormV1.onSubmit env values) c) = None.
Proof.
  unfold YouTubeChannelFormV1.inserted, count. run_onSubmit_v1.
  destruct (YouTubeChannelFormV1.insert env _ _) as [[[error|]]|x]; cbn;
    repeat split.
Qed.

(** The two revisions send the same row exactly for the channel
    identifiers that do not start with [@]: for a handle the first revision
    still writes the URL under [channel/]. *)
Theorem revisions_agree_on_row (values : FormValues) :
  (startsWith (fv_channelId values) "@" = false ->
   YouTubeChannelFormV1.new_row values = new_row values)
  /\ (startsWith (fv_channelId values) "@" = true ->
      source_url (YouTubeChannelFormV1.new_row values)
      <> source_url (new_row values)).
Proof.
  unfold YouTubeChannelFormV1.new_row, new_row. split.
  - intros Id. now rewrite (make_source_url_id _ Id).
  - intros Handle. apply startsWith_at in Handle. destruct Handle as [rest E].
    cbn. rewrite E. intros H. discriminate H.
Qed.

Lemma revisions_agree_on_row_witness :
  YouTubeChannelFormV1.new_row sample_values = new_row sample_values.
Proof.
  apply (proj1 (revisions_agree_on_row sample_values)). reflexivity.
Defined.

End FirstRevision.

(** ** More on session bootstrap *)

Section BootstrapMore.
Import Login.

(** A session query that resolves with an error is notified and ends the
    run: no sign-in is attempted and nothing is navigated, whatever the
    query answers as session. *)
Theorem session_query_error_stops_bootstrap
    (env : Env) (current : option Session) (error : AuthError) :
  getSession env
    = Resolved {| session := current; session_error := Some error |} ->
  log_of (run_async (checkSession env) tt)
  = [GetSession;
     ConsoleError "Error checking session:" (ThrownAuth error);
     ShowToast session_error_toast]
  /\ rejection_of (run_async (checkSession env) tt) = None.
Proof.
  intros Failed. run_checkSession. rewrite Failed. split; reflexivity.
Qed.

Lemma session_query_error_stops_bootstrap_witness :
  log_of (run_async (checkSession env_session_error) tt)
  = [GetSession;
     ConsoleError "Error checking session:" (ThrownAuth network_down);
     ShowToast session_error_toast]
  /\ rejection_of (run_async (checkSession env_session_error) tt) = None.
Proof.
  apply (session_query_error_stops_bootstrap env_session_error None network_down).
  reflexivity.
Defined.

(** With a session at hand the run goes straight to the navigation: the
    auth provider is asked nothing more, so the fixed credentials are not
    used. *)
Theorem existing_session_skips_sign_in (env : Env) (current : Session) :
  getSession env
    = Resolved {| session := Some current; session_error := None |} ->
  log_of (run_async (checkSession env) tt)
  = GetSession
    :: Navigate (NavDelta (-1))
    :: match history_go env (-1) with
       | Some _ => [Navigate (NavTo "/admin")]
       | None => []
       end.
Proof.
  intros Present.
  unfold log_of, run_async, checkSession. cbn -[navigate_back].
  rewrite Present. cbn -[navigate_back].
  rewrite navigate_back_log. reflexivity.
Qed.

Lemma existing_session_skips_sign_in_witness :
  log_of (run_async (checkSession env_signed_in) tt)
  = [GetSession; Navigate (NavDelta (-1))].
Proof.
  apply (existing_session_skips_sign_in env_signed_in {| access_token := "token" |}).
  reflexivity.
Defined.

(** When the first sign-in is accepted there is neither sign-up nor
    retry. *)
Theorem accepted_sign_in_skips_sign_up (env : Env) :
  getSession env = Resolved {| session := None; session_error := None |} ->
  signInWithPassword env 0 console_user = Resolved {| auth_error := None |} ->
  log_of (run_async (checkSession env) tt)
  = GetSession
    :: SignInWithPassword console_user
    :: Navigate (NavDelta (-1))
    :: match history_go env (-1) with
       | Some _ => [Navigate (NavTo "/admin")]
       | None => []
       end.
Proof.
  intros NoSession Accepted.
  unfold log_of, run_async, checkSession, sign_in_console_user.
  cbn -[navigate_back].
  rewrite NoSession. cbn -[navigate_back].
  rewrite Accepted. cbn -[navigate_back].
  rewrite navigate_back_log. reflexivity.
Qed.

Lemma accepted_sign_in_skips_sign_up_witness :
  log_of (run_async (checkSession env_known_user) tt)
  = [GetSession; SignInWithPassword console_user; Navigate (NavDelta (-1))].
Proof.
  apply (accepted_sign_in_skips_sign_up env_known_user); reflexivity.
Defined.

(** When the account is created but the retried sign-in is refused, the
    refusal's message is notified and nothing is navigated. *)
Theorem refused_retry_stops_bootstrap
    (env : Env) (signInError retryError : AuthError) :
  getSession env = Resolved {| session := None; session_error := None |} ->
  signInWithPassword env 0 console_user
    = Resolved {| auth_error := Some signInError |} ->
  signUp env console_user "admin" = Resolved {| auth_error := None |} ->
  signInWithPassword env 1 console_user
    = Resolved {| auth_error := Some retryError |} ->
  log_of (run_async (checkSession env) tt)
  = [GetSession;
     SignInWithPassword console_user;
     SignUp console_user "admin";
     SignInWithPassword console_user;
     ConsoleError "Error signing in:" (ThrownAuth retryError);
     ShowToast {| title := "Error signing in";
                  description := auth_message retryError;
                  variant := VDestructive |}]
  /\ rejection_of (run_async (checkSession env) tt) = None.
Proof.
  intros NoSession Refused Created Retry. run_checkSession.
  rewrite NoSession. cbn. rewrite Refused. cbn. rewrite Created. cbn.
  rewrite Retry. split; reflexivity.
Qed.

Lemma refused_retry_stops_bootstrap_witness :
  log_of (run_async (checkSession env_unconfirmed) tt)
  = [GetSession;
     SignInWithPassword console_user;
     SignUp console_user "admin";
     SignInWithPassword console_user;
     ConsoleError "Error signing in:"
       (ThrownAuth {| auth_message := "Email not confirmed" |});
     ShowToast {| title := "Error signing in";
                  description := "Email not confirmed";
                  variant := VDestructive |}]
  /\ rejection_of (run_async (checkSession env_unconfirmed) tt) = None.
Proof.
  apply (refused_retry_stops_bootstrap env_unconfirmed invalid_credentials
           {| auth_message := "Email not confirmed" |}); reflexivity.
Defined.

(** The fallback is linear: the calls of a run on the auth provider are
    the session query, then the sign-in, then the sign-up, then the sign-in
    again, cut off after any of them.  So the session is queried once,
    sign-in is called at most twice and sign-up at most once, the sign-up
    only after a sign-in and the second sign-in only after the sign-up. *)
Theorem checkSession_fallback_is_linear (env : Env) :
  (exists n,
      1 <= n
      /\ auth_calls (log_of (run_async (checkSession env) tt))
         = firstn n [GetSession;
                     SignInWithPassword console_user;
                     SignUp console_user "admin";
                     SignInWithPassword console_user])
  /\ count is_get_session (log_of (run_async (checkSession env) tt)) = 1
  /\ count is_sign_in (log_of (run_async (checkSession env) tt)) <= 2
  /\ count is_sign_up (log_of (run_async (checkSession env) tt)) <= 1.
Proof.
  run_checkSession. unfold count, auth_calls.
  repeat next_auth_answer env; cbn;
    (split;
     [ first [ exists 1; split; [lia | reflexivity]
             | exists 2; split; [lia | reflexivity]
             | exists 3; split; [lia | reflexivity]
             | exists 4; split; [lia | reflexivity] ]
     | repeat split; lia ]).
Qed.

(** A run never both notifies and navigates; it notifies at most once; and
    when it navigates it calls [navigate(-1)] first and [navigate("/admin")]
    only if that call threw. *)
Theorem checkSession_notifies_or_navigates (env : Env) :
  (toasts (log_of (run_async (checkSession env) tt)) = []
   \/ navigations (log_of (run_async (checkSession env) tt)) = [])
  /\ length (toasts (log_of (run_async (checkSession env) tt))) <= 1
  /\ (navigations (log_of (run_async (checkSession env) tt)) = []
      \/ navigations (log_of (run_async (checkSession env) tt))
         = NavDelta (-1)
           :: match history_go env (-1) with
              | Some _ => [NavTo "/admin"]
              | None => []
              end).
Proof.
  run_checkSession.
  repeat next_auth_answer env; cbn; repeat split; auto.
Qed.

(** A run whose promise resolves has given feedback: it has notified or it
    has navigated. *)
Theorem resolved_checkSession_gives_feedback (env : Env) :
  rejection_of (run_async (checkSession env) tt) = None ->
  toasts (log_of (run_async (checkSession env) tt)) <> []
  \/ navigations (log_of (run_async (checkSession env) tt)) <> [].
Proof.
  run_checkSession.
  repeat next_auth_answer env; cbn; intros H;
    try discriminate H; solve [left; discriminate | right; discriminate].
Qed.

Lemma resolved_checkSession_gives_feedback_witness :
  toasts (log_of (run_async (checkSession env_no_account) tt)) <> []
  \/ navigations (log_of (run_async (checkSession env_no_account) tt)) <> [].
Proof.
  apply (resolved_checkSession_gives_feedback env_no_account). reflexivity.
Defined.

(** The awaits of [checkSession] are not guarded: when one of them rejects,
    the promise of [checkSession] rejects with the same value, and nothing
    has been notified or navigated. *)
Theorem rejected_await_is_silent (env : Env) (e : Thrown) :
  rejection_of (run_async (checkSession env) tt) = Some e ->
  toasts (log_of (run_async (checkSession env) tt)) = []
  /\ navigations (log_of (run_async (checkSession env) tt)) = []
  /\ (getSession env = Rejected e
      \/ signInWithPassword env 0 console_user = Rejected e
      \/ signUp env console_user "admin" = Rejected e
      \/ signInWithPassword env 1 console_user = Rejected e).
Proof.
  run_checkSession.
  destruct (getSession env) as [[[?|] [?|]]|?] eqn:?; cbn.
  all: try (destruct (signInWithPassword env 0 console_user)
              as [[[?|]]|?] eqn:?; cbn).
  all: try (destruct (signUp env console_user "admin")
              as [[[?|]]|?] eqn:?; cbn).
  all: try (destruct (signInWithPassword env 1 console_user)
              as [[[?|]]|?] eqn:?; cbn).
  all: try (destruct (history_go env (-1)); cbn).
  all: intros H; try discriminate H; injection H as ->; repeat split; auto 6.
Qed.

Lemma rejected_await_is_silent_witness :
  toasts (log_of (run_async (checkSession env_sign_in_rejects) tt)) = []
  /\ navigations (log_of (run_async (checkSession env_sign_in_rejects) tt)) = []
  /\ (getSession env_sign_in_rejects = Rejected (ThrownOther "Failed to fetch")
      \/ signInWithPassword env_sign_in_rejects 0 console_user
         = Rejected (ThrownOther "Failed to fetch")
      \/ signUp env_sign_in_rejects console_user "admin"
         = Rejected (ThrownOther "Failed to fetch")
      \/ signInWithPassword env_sign_in_rejects 1 console_user
         = Rejected (ThrownOther "Failed to fetch")).
Proof.
  apply (rejected_await_is_silent env_sign_in_rejects). reflexivity.
Defined.

End BootstrapMore.

(** ** Navigation on an empty history *)

Section EmptyHistory.
Import Login.

Lemma go_back_on_empty_history (h : History.History) :
  History.back h = [] -> History.go h (-1) = h.
Proof.
  destruct h as [before current after]. cbn. intros ->. reflexivity.
Qed.

(** C7 at the input on which the code misses it: with no session, a
    failing sign-in, a successful sign-up, a successful retry, and a
    history that holds nothing before the login page, [navigate(-1)]
    returns without throwing, so the [catch] block with
    [navigate("/admin")] is not reached: [checkSession] issues that one
    navigation, the browser stays where it was, and the default route is
    never navigated to. *)
Theorem empty_history_strands_login
    (env : Env) (signInError : AuthError) (h : History.History) :
  getSession env = Resolved {| session := None; session_error := None |} ->
  signInWithPassword env 0 console_user
    = Resolved {| auth_error := Some signInError |} ->
  signUp env console_user "admin" = Resolved {| auth_error := None |} ->
  signInWithPassword env 1 console_user = Resolved {| auth_error := None |} ->
  history_go env (-1) = None ->
  History.back h = [] ->
  navigations (log_of (run_async (checkSession env) tt)) = [NavDelta (-1)]
  /\ History.location_after h
       (navigations (log_of (run_async (checkSession env) tt))) = h
  /\ ~ In (Navigate (NavTo "/admin")) (log_of (run_async (checkSession env) tt))
  /\ toasts (log_of (run_async (checkSession env) tt)) = [].
Proof.
  intros NoSession SignInFailed Created Retry Silent Empty.
  assert (log_of (run_async (checkSession env) tt)
          = [GetSession;
             SignInWithPassword console_user;
             SignUp console_user "admin";
             SignInWithPassword console_user;
             Navigate (NavDelta (-1))]) as Log.
  { unfold log_of, run_async, checkSession, sign_in_console_user.
    cbn -[navigate_back].
    rewrite NoSession. cbn -[navigate_back].
    rewrite SignInFailed. cbn -[navigate_back].
    rewrite Created. cbn -[navigate_back].
    rewrite Retry. cbn -[navigate_back].
    rewrite navigate_back_log, Silent. reflexivity. }
  rewrite Log. cbn [navigations toasts]. repeat split.
  - unfold History.location_after. cbn [fold_left History.visit].
    now apply go_back_on_empty_history.
  - intros Found. repeat (destruct Found as [E|Found]; [discriminate E|]).
    exact Found.
Qed.

Lemma empty_history_strands_login_witness :
  navigations (log_of (run_async (checkSession env_first_visit_silent) tt))
    = [NavDelta (-1)]
  /\ History.location_after History.fresh_tab
       (navigations (log_of (run_async (checkSession env_first_visit_silent) tt)))
     = History.fresh_tab
  /\ ~ In (Navigate (NavTo "/admin"))
         (log_of (run_async (checkSession env_first_visit_silent) tt))
  /\ toasts (log_of (run_async (checkSession env_first_visit_silent) tt)) = [].
Proof.
  apply (empty_history_strands_login env_first_visit_silent invalid_credentials
           History.fresh_tab); reflexivity.
Defined.

End EmptyHistory.

(** ** The loading flag and runs in flight *)

Section LoadingFlag.
Import YouTubeChannelForm Mounted.

Lemma next_segment_app (l : list Effect) :
  (fst (next_segment l) ++ snd (next_segment l))%list = l.
Proof.
  induction l as [|e l IH]; [reflexivity|].
  cbn [next_segment]. destruct (suspends e); [reflexivity|].
  destruct (next_segment l) as [segment rest]. cbn in *. now rewrite IH.
Qed.

Lemma replay_app (l1 l2 : list Effect) (c : Component) :
  replay (l1 ++ l2) c = replay l2 (replay l1 c).
Proof. apply fold_left_app. Qed.



Lemma set_nth_same {A} (l : list A) :
  forall i a, nth_error l i = Some a -> set_nth i a l = l.
Proof.
  induction l as [|x l IH]; intros [|i] a H; cbn in *; try discriminate H.
  - now injection H as ->.
  - now rewrite (IH i a H).
Qed.



(** The effect of a run on the component is the effect of its calls. *)
Lemma onSubmit_state_replay (env : Env) (values : FormValues) (c : Component) :
  state_of (run_async (onSubmit env values) c)
  = replay (log_of (run_async (onSubmit env values) c)) c.
Proof.
  run_onSubmit. repeat next_answer env; reflexivity.
Qed.

(** A run does not read the component: its calls are the same from any. *)
Lemma onSubmit_log_independent
    (env : Env) (values : FormValues) (c c' : Component) :
  log_of (run_async (onSubmit env values) c)
  = log_of (run_async (onSubmit env values) c').
Proof.
  run_onSubmit. repeat next_answer env; reflexivity.
Qed.







Lemma nth_error_set_nth {A} (l : list A) :
  forall i a x, nth_error l i = Some x -> nth_error (set_nth i a l) i = Some a.
Proof.
  induction l as [|y l IH]; intros [|i] a x H; cbn in *; try discriminate H.
  - reflexivity.
  - exact (IH i a x H).
Qed.

Lemma set_nth_twice {A} (l : list A) :
  forall i a b, set_nth i b (set_nth i a l) = set_nth i b l.
Proof.
  induction l as [|y l IH]; intros [|i] a b; cbn; try reflexivity.
  now rewrite IH.
Qed.

Lemma next_segment_shorter (l : list Effect) :
  length (snd (next_segment l)) <= pred (length l).
Proof.
  induction l as [|e l IH]; [apply le_n|].
  cbn [next_segment]. destruct (suspends e); [apply le_n|].
  destruct (next_segment l) as [segment rest]. cbn in *. lia.
Qed.

(** Settling a run often enough takes it to its end: the component has then
    seen all the calls the run had left, and the other runs are as they
    were. *)
Lemma settle_to_end (i : nat) :
  forall n p r,
    length r <= n ->
    nth_error (runs p) i = Some r ->
    run_events (repeat (Settle i) n) p
    = {| component := replay r (component p);
         runs := set_nth i [] (runs p) |}.
Proof.
  induction n as [|n IH]; intros [c rs] r Short At; cbn in At.
  - destruct r; [|cbn in Short; lia]. cbn.
    now rewrite (set_nth_same _ _ _ At).
  - cbn [repeat run_events fold_left step]. fold (run_events (repeat (Settle i) n)).
    unfold settle. cbn [runs component]. rewrite At.
    pose proof (next_segment_app r) as Split.
    pose proof (next_segment_shorter r) as Shorter.
    destruct (next_segment r) as [segment rest]. cbn in Split, Shorter.
    rewrite (IH _ rest); cbn [runs component].
    + rewrite <- replay_app, Split, set_nth_twice. reflexivity.
    + lia.
    + eapply nth_error_set_nth. exact At.
Qed.

Lemma settle_nothing (i n : nat) (p : Page) :
  nth_error (runs p) i = None ->
  run_events (repeat (Settle i) n) p = p.
Proof.
  intros Past. induction n as [|n IH]; [reflexivity|].
  cbn [repeat run_events fold_left step]. unfold settle. rewrite Past.
  exact IH.
Qed.

(** A submission that no other event interferes with leaves the component
    as [handleSubmit] does when run in one go. *)
Lemma lone_submission_as_handleSubmit (env : Env) (p : Page) (n : nat) :
  length (log_of (handleSubmit env (component p))) <= n ->
  component (run_events (Submit env :: repeat (Settle (length (runs p))) n) p)
  = state_of (handleSubmit env (component p)).
Proof.
  destruct p as [c rs]. cbn [component runs run_events fold_left step].
  fold (run_events (repeat (Settle (length rs)) n)).
  unfold begin, handleSubmit. cbn [component runs].
  destruct (formSchema (form c)).
  - intros Enough.
    pose proof (next_segment_app (log_of (run_async (onSubmit env (form c)) c)))
      as Split.
    pose proof (next_segment_shorter (log_of (run_async (onSubmit env (form c)) c)))
      as Shorter.
    destruct (next_segment _) as [segment rest]. cbn in Split, Shorter.
    rewrite (settle_to_end _ n _ rest); cbn [component runs].
    + now rewrite <- replay_app, Split, <- onSubmit_state_replay.
    + lia.
    + rewrite nth_error_app2 by apply le_n. now rewrite Nat.sub_diag.
  - intros _. rewrite settle_nothing; [reflexivity|].
    apply nth_error_None. apply le_n.
Qed.




End LoadingFlag.
